(** * Agmarknet price bridge: a model of [python-scraper/app.py]

    The program is a Flask application with two routes.  [home] serves a
    usage line at [/]; [get_price] serves [/request]: it reads three query
    parameters, rejects the request when [commodity] or [state] is falsy, and
    otherwise answers with one placeholder price record stamped with today's
    date.  The record construction sits in a [try] block whose [except
    Exception] arm answers with the exception's text and status 500.

    The definitions come in layers, and the theorems follow them:
    - [Py]: the pieces of the Python runtime the handler touches (objects,
      truthiness, exceptions, [datetime] and [strftime]);
    - [Flask]: query arguments, responses, [jsonify], the conversion of a
      view's return value into a response;
    - [App]: the two view functions and the URL map, line by line;
    - [DateFormat]: the date pattern the specification names, as a parser;
    - [Startup]: the block that reads [PORT] and starts the server. *)

From Stdlib Require Import String Ascii List Bool Arith ZArith Lia.
From Stdlib Require Import Numbers.DecimalString.
From Stdlib Require Numbers.DecimalPos Numbers.DecimalFacts.
Import ListNotations.
Open Scope list_scope.
Open Scope string_scope.

Set Warnings "-register-all".

(** ** The Python runtime *)

Module Py.

(** The objects the handler manipulates: [None], [str], and the [list] and
    [dict] literals handed to [jsonify].  A dict keeps its items in
    insertion order. *)
Inductive pyobj : Type :=
| PyNone
| PyStr (s : string)
| PyList (xs : list pyobj)
| PyDict (items : list (string * pyobj)).

(** Truth value testing, as [not x] and [x if c else y] apply it: [None],
    the empty string and empty containers are false. *)
Definition truthy (v : pyobj) : bool :=
  match v with
  | PyNone => false
  | PyStr s => negb (s =? "")
  | PyList xs => negb (Nat.eqb (List.length xs) 0)
  | PyDict items => negb (Nat.eqb (List.length items) 0)
  end.

(** [d[k]] read-only.  The dict literals of this program have distinct
    keys, so the first binding of [k] is the only one. *)
Fixpoint dict_get (items : list (string * pyobj)) (k : string) : option pyobj :=
  match items with
  | [] => None
  | (k', v) :: rest => if k' =? k then Some v else dict_get rest k
  end.

(** An instance of [Exception]; [exc_str] is what [str(e)] returns. *)
Record exn : Type := Exception { exc_class : string; exc_str : string }.

Definition str (e : exn) : string := exc_str e.

(** Outcome of an expression that may raise. *)
Inductive result (A : Type) : Type :=
| Ok (a : A)
| Raise (e : exn).
Arguments Ok {A} a.
Arguments Raise {A} e.

Definition bind {A B : Type} (c : result A) (k : A -> result B) : result B :=
  match c with
  | Ok a => k a
  | Raise e => Raise e
  end.

Notation "x <- c ;; k" := (bind c (fun x => k))
  (at level 61, c at next level, right associativity).

(** [try: c  except Exception as e: h e] *)
Definition try_except {A : Type} (c : result A) (h : exn -> A) : A :=
  match c with
  | Ok a => a
  | Raise e => h e
  end.

(** A [datetime.datetime] value (naive, as [datetime.now()] returns it). *)
Record datetime : Type := mk_datetime {
  year : Z;
  month : Z;
  day : Z;
  hour : Z;
  minute : Z;
  second : Z;
  microsecond : Z
}.

(** The class invariant on the calendar fields: [MINYEAR <= year <=
    MAXYEAR], a month of the year, a day no month exceeds. *)
Definition MINYEAR : Z := 1.
Definition MAXYEAR : Z := 9999.

Definition valid_date (d : datetime) : Prop :=
  (MINYEAR <= year d <= MAXYEAR /\ 1 <= month d <= 12 /\ 1 <= day d <= 31)%Z.

(** Two clock readings on the same calendar day. *)
Definition same_date (d1 d2 : datetime) : Prop :=
  year d1 = year d2 /\ month d1 = month d2 /\ day d1 = day d2.

(** [str(n)] for an int: its decimal numeral. *)
Definition dec (n : Z) : string := NilZero.string_of_int (Z.to_int n).

Fixpoint zeros (n : nat) : string :=
  match n with
  | 0 => ""
  | S k => String "0" (zeros k)
  end.

(** [s.zfill(w)] for a numeral without sign. *)
Definition zfill (w : nat) (s : string) : string :=
  zeros (w - String.length s) ++ s.

(** Abbreviated month names of the C locale, which is the [LC_TIME] locale
    of a process that never calls [setlocale], as this one. *)
Definition abmon : list string :=
  ["Jan"; "Feb"; "Mar"; "Apr"; "May"; "Jun";
   "Jul"; "Aug"; "Sep"; "Oct"; "Nov"; "Dec"].

(** What differs between builds of the interpreter: whether [%Y] pads a
    year below 1000 to four digits.  Recent CPython does so everywhere;
    older builds leave it to the C library, and glibc does not pad. *)
Record platform : Type := { normalize_century : bool }.

Definition ValueError (msg : string) : exn :=
  {| exc_class := "ValueError"; exc_str := msg |}.

(** One conversion specification [%c].  The directives covered are those of
    the calendar date and the clock time.  Any other one is outside this
    model, which raises [ValueError] there; the program's only format
    string uses [%d], [%b] and [%Y]. *)
Definition directive (p : platform) (d : datetime) (c : ascii) : result string :=
  if Ascii.eqb c "d" then Ok (zfill 2 (dec (day d)))
  else if Ascii.eqb c "m" then Ok (zfill 2 (dec (month d)))
  else if Ascii.eqb c "b" then Ok (nth (Z.to_nat (month d - 1)) abmon "")
  else if Ascii.eqb c "Y" then
    Ok (if normalize_century p then zfill 4 (dec (year d)) else dec (year d))
  else if Ascii.eqb c "H" then Ok (zfill 2 (dec (hour d)))
  else if Ascii.eqb c "M" then Ok (zfill 2 (dec (minute d)))
  else if Ascii.eqb c "S" then Ok (zfill 2 (dec (second d)))
  else if Ascii.eqb c "%" then Ok "%"
  else Raise (ValueError "Invalid format string").

(** [d.strftime(fmt)]: ordinary characters are copied, [%c] is
    converted. *)
Fixpoint strftime (p : platform) (d : datetime) (fmt : string) : result string :=
  match fmt with
  | EmptyString => Ok ""
  | String "%" EmptyString => Raise (ValueError "Invalid format string")
  | String "%" (String c rest) =>
      s <- directive p d c ;;
      t <- strftime p d rest ;;
      Ok (s ++ t)
  | String c rest =>
      t <- strftime p d rest ;;
      Ok (String c t)
  end.

End Py.

(** ** The framework *)

Module Flask.
Import Py.

(** [request.args]: the decoded query string, a multi-dict.  A key may
    occur several times; the pairs keep the order of the URL. *)
Definition MultiDict : Type := list (string * string).

(** [args.get(key, default)]: the first value of [key], else [default]. *)
Fixpoint args_get (args : MultiDict) (key : string) (default : pyobj) : pyobj :=
  match args with
  | [] => default
  | (k, v) :: rest => if k =? key then PyStr v else args_get rest key default
  end.

(** The parameter [key] as the client supplied it: absent from the query
    string, or present with the value [v] the handler will read. *)
Definition absent (args : MultiDict) (key : string) : Prop :=
  args_get args key PyNone = PyNone.

Definition supplied (args : MultiDict) (key v : string) : Prop :=
  args_get args key PyNone = PyStr v.

Definition absent_or_empty (args : MultiDict) (key : string) : Prop :=
  absent args key \/ supplied args key "".

(** The payload of a response: text, or the JSON document that serialises
    a Python object ([None] as null, [str] as a string, [list] as an array,
    [dict] as an object). *)
Inductive payload : Type :=
| Text (s : string)
| Json (v : pyobj).

Record Response : Type := { status : nat; body : payload }.

(** [jsonify(obj)]: a response carrying [obj] as JSON, status 200. *)
Definition jsonify (obj : pyobj) : Response :=
  {| status := 200; body := Json obj |}.

(** What a view function returns: a string, a response, or a pair of a
    response and a status code. *)
Inductive rv : Type :=
| RvStr (s : string)
| RvResponse (r : Response)
| RvWithStatus (r : Response) (code : nat).

(** [make_response]: a string becomes a 200 response with that text; a
    status given beside a response overrides the response's own. *)
Definition make_response (v : rv) : Response :=
  match v with
  | RvStr s => {| status := 200; body := Text s |}
  | RvResponse r => r
  | RvWithStatus r code => {| status := code; body := body r |}
  end.

(** A GET request: the path and the query arguments. *)
Record Request : Type := { path : string; args : MultiDict }.

End Flask.

(** ** The application *)

Module App.
Import Py Flask.

(** Module-level names of [app.py] that are plain data.  They are the only
    state that outlives a request. *)
Record Globals : Type := { BASE_URL : string }.

Definition module_init : Globals :=
  {| BASE_URL := "https://agmarknet.gov.in/SearchCmmMkt.aspx" |}.

(** What the [try] block asks of the world: the system clock, through
    [datetime.now()], and the formatting of what the clock returned.
    Either call may raise. *)
Record Env : Type := {
  datetime_now : result datetime;
  datetime_strftime : datetime -> string -> result string
}.

(** [def home()] *)
Definition home (g : Globals) : rv * Globals :=
  (RvStr "Agmarknet Scraper API is Running! Use /request?commodity=Wheat&state=Punjab", g).

(** The body of the [try] block of [get_price]. *)
Definition get_price_try (env : Env) (commodity state market : pyobj) : result rv :=
  let headers :=
    PyDict [("User-Agent",
             PyStr "Mozilla/5.0 (Windows NT 10.0; Win64; x64) AppleWebKit/537.36 (KHTML, like Gecko) Chrome/91.0.4472.124 Safari/537.36")] in
  now <- datetime_now env ;;
  current_date <- datetime_strftime env now "%d %b %Y" ;;
  let data :=
    PyList [
      PyDict [
        ("S.No", PyStr "1");
        ("City", if truthy market then market else state);
        ("Commodity", commodity);
        ("Min Prize", PyStr "2200");
        ("Max Prize", PyStr "2400");
        ("Model Prize", PyStr "2300");
        ("Date", PyStr current_date)
      ]
    ] in
  Ok (RvResponse (jsonify data)).

(** [def get_price()] *)
Definition get_price (env : Env) (args : MultiDict) (g : Globals) : rv * Globals :=
  let commodity := args_get args "commodity" PyNone in
  let state := args_get args "state" PyNone in
  let market := args_get args "market" (PyStr "") in
  if negb (truthy commodity) || negb (truthy state) then
    (RvWithStatus
       (jsonify (PyDict [("error", PyStr "Please provide commodity and state")]))
       400, g)
  else
    (try_except (get_price_try env commodity state market)
       (fun e => RvWithStatus (jsonify (PyDict [("error", PyStr (str e))])) 500),
     g).

(** The URL map built by the two [@app.route] decorators. *)
Inductive endpoint : Type := ep_home | ep_get_price.

Definition url_map (p : string) : option endpoint :=
  if p =? "/" then Some ep_home
  else if p =? "/request" then Some ep_get_price
  else None.

(** Serving one GET request: match the path, call the view, convert what
    it returns.  [None] stands for the framework's own reply when no rule
    matches the path. *)
Definition handle (env : Env) (req : Request) (g : Globals)
  : option Response * Globals :=
  match url_map (path req) with
  | Some ep_home => let (v, g') := home g in (Some (make_response v), g')
  | Some ep_get_price =>
      let (v, g') := get_price env (args req) g in (Some (make_response v), g')
  | None => (None, g)
  end.

(** A run of the server over the requests it receives, each with the
    environment it is served in; the responses come out in order. *)
Fixpoint serve (g : Globals) (reqs : list (Env * Request))
  : list (option Response) * Globals :=
  match reqs with
  | [] => ([], g)
  | (env, req) :: rest =>
      let (r, g1) := handle env req g in
      let (rs, g2) := serve g1 rest in
      (r :: rs, g2)
  end.

(** The environment of a running interpreter on platform [p] whose clock
    reads [clock]: [datetime.now()] returns the clock's reading and
    [strftime] is the runtime's. *)
Definition std_env (p : platform) (clock : datetime) : Env :=
  {| datetime_now := Ok clock;
     datetime_strftime := strftime p |}.

(** The two error replies, as the client receives them. *)
Definition bad_request : Response :=
  {| status := 400;
     body := Json (PyDict [("error", PyStr "Please provide commodity and state")]) |}.

Definition server_error (e : exn) : Response :=
  {| status := 500; body := Json (PyDict [("error", PyStr (str e))]) |}.

(** [GET /request?...] and [GET /] *)
Definition GET_request (a : MultiDict) : Request :=
  {| path := "/request"; args := a |}.

Definition GET_root (a : MultiDict) : Request :=
  {| path := "/"; args := a |}.

End App.

(** ** The date pattern of the specification

    The specification describes the [Date] field as two-digit day,
    three-letter month abbreviation, four-digit year, separated by single
    spaces.  [parse_DD_Mon_YYYY] reads exactly that shape and returns the
    day, month and year it denotes. *)

Module DateFormat.

Definition is_digit (c : ascii) : bool :=
  (48 <=? N_of_ascii c)%N && (N_of_ascii c <=? 57)%N.

Definition digit_val (c : ascii) : Z := Z.of_N (N_of_ascii c) - 48.

(** [s] is the two-digit (four-digit) numeral of [n]. *)
Definition two_digits_of (s : string) (n : Z) : bool :=
  match list_ascii_of_string s with
  | [a; b] =>
      is_digit a && is_digit b && (10 * digit_val a + digit_val b =? n)%Z
  | _ => false
  end.

Definition four_digits_of (s : string) (n : Z) : bool :=
  match list_ascii_of_string s with
  | [a; b; c; d] =>
      forallb is_digit [a; b; c; d]
      && (1000 * digit_val a + 100 * digit_val b + 10 * digit_val c + digit_val d =? n)%Z
  | _ => false
  end.

Definition month_abbreviations : list (string * Z) :=
  [("Jan", 1); ("Feb", 2); ("Mar", 3); ("Apr", 4); ("May", 5); ("Jun", 6);
   ("Jul", 7); ("Aug", 8); ("Sep", 9); ("Oct", 10); ("Nov", 11); ("Dec", 12)]%Z.

Fixpoint lookup (s : string) (l : list (string * Z)) : option Z :=
  match l with
  | [] => None
  | (k, v) :: rest => if k =? s then Some v else lookup s rest
  end.

Definition parse_DD_Mon_YYYY (s : string) : option (Z * Z * Z) :=
  match list_ascii_of_string s with
  | [d1; d2; sp1; m1; m2; m3; sp2; y1; y2; y3; y4] =>
      if forallb is_digit [d1; d2; y1; y2; y3; y4]
         && Ascii.eqb sp1 " " && Ascii.eqb sp2 " "
      then
        match lookup (string_of_list_ascii [m1; m2; m3]) month_abbreviations with
        | Some m =>
            Some (10 * digit_val d1 + digit_val d2,
                  m,
                  1000 * digit_val y1 + 100 * digit_val y2
                  + 10 * digit_val y3 + digit_val y4)%Z
        | None => None
        end
      else None
  | _ => None
  end.

End DateFormat.

(** ** Start-up

    The [if __name__ == '__main__'] block at the end of [app.py]: the port is
    read from the process environment and handed to [app.run]. *)

Module Startup.
Import DateFormat.

(** [os.environ]: a mapping from variable names to their text. *)
Definition Environ : Type := string -> option string.

(** What [os.environ.get('PORT', 5000)] returns: the text of the variable,
    or the [int] given as default. *)
Inductive port_value : Type :=
| PortText (s : string)
| PortInt (n : Z).

Definition environ_get (environ : Environ) (key : string) (default : port_value)
  : port_value :=
  match environ key with
  | Some s => PortText s
  | None => default
  end.

(** The white space [int] skips around a numeral: tab, line feed, vertical
    tab, form feed, carriage return and space. *)
Definition Py_ISSPACE (c : ascii) : bool :=
  let n := N_of_ascii c in
  ((9 <=? n)%N && (n <=? 13)%N) || (n =? 32)%N.

Fixpoint skip_spaces (s : string) : string :=
  match s with
  | EmptyString => EmptyString
  | String c rest => if Py_ISSPACE c then skip_spaces rest else s
  end.

(** The run of digits and underscores at the head of [s]: its value, the
    number of digits, and what follows.  Two underscores in a row, or one at
    the end of the run, are refused. *)
Fixpoint scan_digits (s : string) (after_underscore : bool) (acc : Z) (digits : nat)
  : option (Z * nat * string) :=
  match s with
  | EmptyString => if after_underscore then None else Some (acc, digits, EmptyString)
  | String c rest =>
      if is_digit c then scan_digits rest false (10 * acc + digit_val c)%Z (S digits)
      else if Ascii.eqb c "_" then
        if after_underscore then None else scan_digits rest true acc digits
      else if after_underscore then None
      else Some (acc, digits, s)
  end.

(** The threshold under which the limit on the digits of a numeral is not
    looked at. *)
Definition MAX_STR_DIGITS_THRESHOLD : nat := 640.

Definition starts_with (c : ascii) (s : string) : bool :=
  match s with
  | EmptyString => false
  | String c' _ => Ascii.eqb c' c
  end.

Definition tail (s : string) : string :=
  match s with
  | EmptyString => EmptyString
  | String _ rest => rest
  end.

(** [int(s)] for a [str] of ASCII characters, base 10: optional white space,
    an optional sign, digits with single underscores between them, optional
    white space.  [None] stands for [ValueError].  [max_str_digits] is the
    interpreter's limit on the digits of a numeral, [0] for none.  Text
    outside ASCII is not covered: the interpreter first maps Unicode digits
    and spaces to ASCII ones, which a string of bytes does not show. *)
Definition int_str (max_str_digits : nat) (s : string) : option Z :=
  let s1 := skip_spaces s in
  let negative := starts_with "-" s1 in
  let numeral := if starts_with "+" s1 || negative then tail s1 else s1 in
  if starts_with "_" numeral then None
  else
    match scan_digits numeral false 0 0 with
    | None => None
    | Some (v, digits, rest) =>
        if Nat.eqb digits 0 then None
        else if (MAX_STR_DIGITS_THRESHOLD <? digits)%nat
                && (0 <? max_str_digits)%nat && (max_str_digits <? digits)%nat
        then None
        else
          match skip_spaces rest with
          | EmptyString => Some (if negative then - v else v)%Z
          | _ => None
          end
    end.

(** The texts [int_str] covers: every character is ASCII. *)
Definition ascii_only (s : string) : bool :=
  forallb (fun c => (N_of_ascii c <? 128)%N) (list_ascii_of_string s).

(** [int(x)]: an [int] is returned as it is, a [str] is parsed. *)
Definition int (max_str_digits : nat) (x : port_value) : option Z :=
  match x with
  | PortInt n => Some n
  | PortText s => int_str max_str_digits s
  end.

(** How the module ends when it is loaded under the name [name]: the block
    is skipped, or [int] raises and the process ends with the traceback, or
    [app.run] is called with a host and a port. *)
Inductive startup : Type :=
| NotMain
| Crashed (exc_class : string)
| AppRun (host : string) (port : Z).

Definition main (name : string) (max_str_digits : nat) (environ : Environ) : startup :=
  if name =? "__main__" then
    match int max_str_digits (environ_get environ "PORT" (PortInt 5000)) with
    | None => Crashed "ValueError"
    | Some port => AppRun "0.0.0.0" port
    end
  else NotMain.

End Startup.

(** ** Properties *)

Import Py Flask App DateFormat.

(** *** Query arguments *)

Lemma args_get_default (a : MultiDict) (k : string) (d : pyobj) :
  args_get a k d =
  match args_get a k PyNone with
  | PyNone => d
  | v => v
  end.
Proof.
  induction a as [|[k' v] rest IH]; simpl.
  - reflexivity.
  - destruct (k' =? k); [reflexivity | exact IH].
Qed.

Lemma args_get_none_or_str (a : MultiDict) (k : string) :
  args_get a k PyNone = PyNone \/ exists v, args_get a k PyNone = PyStr v.
Proof.
  induction a as [|[k' v] rest IH]; simpl.
  - now left.
  - destruct (k' =? k); [right; now exists v | exact IH].
Qed.

Lemma truthy_str (s : string) : truthy (PyStr s) = true <-> s <> "".
Proof.
  simpl. destruct (String.eqb_spec s ""); simpl; split; congruence.
Qed.

Lemma supplied_truthy (a : MultiDict) (k v : string) :
  supplied a k v -> v <> "" -> truthy (args_get a k PyNone) = true.
Proof.
  unfold supplied. intros -> Hv. now apply truthy_str.
Qed.

Lemma absent_or_empty_falsy (a : MultiDict) (k : string) :
  absent_or_empty a k <-> truthy (args_get a k PyNone) = false.
Proof.
  unfold absent_or_empty, absent, supplied. split.
  - intros [-> | ->]; reflexivity.
  - destruct (args_get_none_or_str a k) as [H | [v H]]; rewrite H.
    + now left.
    + simpl. destruct (String.eqb_spec v ""); [subst; now right | discriminate].
Qed.

(** The [market] argument as the handler reads it, with its [''] default. *)
Lemma market_read (a : MultiDict) :
  (forall m, supplied a "market" m -> args_get a "market" (PyStr "") = PyStr m)
  /\ (absent a "market" -> args_get a "market" (PyStr "") = PyStr "").
Proof.
  unfold supplied, absent.
  split; [intros m H | intros H]; rewrite args_get_default, H; reflexivity.
Qed.

(** *** The clock *)

Lemma append_empty_r (s : string) : s ++ "" = s.
Proof.
  induction s as [|c s IH]; simpl; [reflexivity | now rewrite IH].
Qed.

(** The program's format string, converted.  Only the calendar date of the
    clock reading enters the result. *)
Lemma strftime_d_b_Y (p : platform) (d : datetime) :
  strftime p d "%d %b %Y" =
  Ok (zfill 2 (dec (day d)) ++ " "
      ++ nth (Z.to_nat (month d - 1)) abmon "" ++ " "
      ++ (if normalize_century p then zfill 4 (dec (year d)) else dec (year d))).
Proof.
  cbn [strftime directive bind Ascii.eqb Bool.eqb].
  now rewrite append_empty_r.
Qed.

(** *** The handler in any environment *)

Section AnyEnvironment.
Variable env : Env.
Variable a : MultiDict.
Variable g : Globals.

Local Abbreviation commodity := (args_get a "commodity" PyNone).
Local Abbreviation state := (args_get a "state" PyNone).
Local Abbreviation market := (args_get a "market" (PyStr "")).

(** The validation arm: a falsy [commodity] or [state] ends the request
    before the [try] block is entered. *)
Lemma handle_rejected :
  truthy commodity = false \/ truthy state = false ->
  handle env (GET_request a) g = (Some bad_request, g).
Proof.
  intros H. unfold handle, get_price. cbn [url_map GET_request path args String.eqb Ascii.eqb Bool.eqb].
  assert (negb (truthy commodity) || negb (truthy state) = true) as ->.
  { destruct H as [-> | ->]; [reflexivity | apply orb_true_r]. }
  reflexivity.
Qed.

(** Past validation the response is what the [try] statement yields. *)
Lemma handle_accepted :
  truthy commodity = true -> truthy state = true ->
  handle env (GET_request a) g =
  (Some (make_response
           (try_except (get_price_try env commodity state market)
              (fun e => RvWithStatus (jsonify (PyDict [("error", PyStr (str e))])) 500))),
   g).
Proof.
  intros Hc Hs. unfold handle, get_price. cbn [url_map GET_request path args String.eqb Ascii.eqb Bool.eqb].
  rewrite Hc, Hs. reflexivity.
Qed.

(** The [try] block either raises or returns a [jsonify] response. *)
Lemma get_price_try_cases (c s m : pyobj) :
  (exists e, get_price_try env c s m = Raise e)
  \/ (exists obj, get_price_try env c s m = Ok (RvResponse (jsonify obj))).
Proof.
  unfold get_price_try.
  destruct (datetime_now env) as [t | e]; cbn [bind]; [| left; now exists e].
  destruct (datetime_strftime env t "%d %b %Y") as [date | e]; cbn [bind];
    [right; eexists; reflexivity | left; now exists e].
Qed.

End AnyEnvironment.

(** *** The handler under the interpreter's own clock and [strftime] *)

Section StandardEnvironment.
Variable p : platform.
Variable clock : datetime.
Variable a : MultiDict.
Variable g : Globals.

Local Abbreviation commodity := (args_get a "commodity" PyNone).
Local Abbreviation state := (args_get a "state" PyNone).
Local Abbreviation market := (args_get a "market" (PyStr "")).

(** The text [strftime] produces for the clock reading. *)
Local Abbreviation today :=
  (zfill 2 (dec (day clock)) ++ " "
   ++ nth (Z.to_nat (month clock - 1)) abmon "" ++ " "
   ++ (if normalize_century p then zfill 4 (dec (year clock)) else dec (year clock))).

Lemma get_price_try_std (c s m : pyobj) :
  get_price_try (std_env p clock) c s m =
  Ok (RvResponse (jsonify (PyList [PyDict [
        ("S.No", PyStr "1");
        ("City", if truthy m then m else s);
        ("Commodity", c);
        ("Min Prize", PyStr "2200");
        ("Max Prize", PyStr "2400");
        ("Model Prize", PyStr "2300");
        ("Date", PyStr today)]]))).
Proof.
  unfold get_price_try, std_env. cbn [datetime_now datetime_strftime bind].
  rewrite strftime_d_b_Y. reflexivity.
Qed.

Lemma handle_served :
  truthy commodity = true -> truthy state = true ->
  handle (std_env p clock) (GET_request a) g =
  (Some {| status := 200;
           body := Json (PyList [PyDict [
             ("S.No", PyStr "1");
             ("City", if truthy market then market else state);
             ("Commodity", commodity);
             ("Min Prize", PyStr "2200");
             ("Max Prize", PyStr "2400");
             ("Model Prize", PyStr "2300");
             ("Date", PyStr today)]]) |},
   g).
Proof.
  intros Hc Hs. rewrite (handle_accepted _ _ _ Hc Hs), get_price_try_std.
  reflexivity.
Qed.

End StandardEnvironment.

(** The [City] entry, by the three ways [market] can arrive. *)
Lemma city_choice (a : MultiDict) (s : string) :
  supplied a "state" s ->
  (forall m, supplied a "market" m -> m <> "" ->
     (if truthy (args_get a "market" (PyStr "")) then args_get a "market" (PyStr "")
      else args_get a "state" PyNone) = PyStr m)
  /\ (absent_or_empty a "market" ->
     (if truthy (args_get a "market" (PyStr "")) then args_get a "market" (PyStr "")
      else args_get a "state" PyNone) = PyStr s).
Proof.
  intros Hs. destruct (market_read a) as [Hm Hno]. split.
  - intros m Hsup Hne. rewrite (Hm m Hsup).
    now rewrite (proj2 (truthy_str m) Hne).
  - intros [Habs | Hemp].
    + rewrite (Hno Habs). exact Hs.
    + rewrite (Hm "" Hemp). exact Hs.
Qed.

(** When the [try] block raises: the clock call does, or the formatting of
    its reading does. *)
Lemma get_price_try_raises (env : Env) (c s m : pyobj) (e : exn) :
  get_price_try env c s m = Raise e <->
  datetime_now env = Raise e
  \/ exists now, datetime_now env = Ok now
                 /\ datetime_strftime env now "%d %b %Y" = Raise e.
Proof.
  unfold get_price_try. split.
  - destruct (datetime_now env) as [t | e0]; cbn [bind].
    + destruct (datetime_strftime env t "%d %b %Y") as [date | e1] eqn:Hfmt;
        cbn [bind]; [discriminate |].
      intros H. injection H as <-. right. exists t. now split.
    + intros H. injection H as <-. now left.
  - intros [H | [t [H1 H2]]].
    + now rewrite H.
    + rewrite H1. cbn [bind]. now rewrite H2.
Qed.

(** *** The scenarios of the specification, run *)

Example scenario_wheat_punjab :
  fst (handle (std_env {| normalize_century := false |} (mk_datetime 2024 6 5 10 30 0 0))
         (GET_request [("commodity", "Wheat"); ("state", "Punjab")]) module_init) =
  Some {| status := 200;
          body := Json (PyList [PyDict [
            ("S.No", PyStr "1"); ("City", PyStr "Punjab");
            ("Commodity", PyStr "Wheat"); ("Min Prize", PyStr "2200");
            ("Max Prize", PyStr "2400"); ("Model Prize", PyStr "2300");
            ("Date", PyStr "05 Jun 2024")]]) |}.
Proof. reflexivity. Qed.

Example scenario_market_ludhiana :
  exists items,
    fst (handle (std_env {| normalize_century := true |} (mk_datetime 2024 6 5 10 30 0 0))
           (GET_request [("commodity", "Wheat"); ("state", "Punjab");
                         ("market", "Ludhiana")]) module_init) =
    Some {| status := 200; body := Json (PyList [PyDict items]) |}
    /\ dict_get items "City" = Some (PyStr "Ludhiana").
Proof. eexists. split; reflexivity. Qed.

Example scenario_no_commodity :
  fst (handle (std_env {| normalize_century := true |} (mk_datetime 2024 6 5 10 30 0 0))
         (GET_request [("state", "Punjab")]) module_init) = Some bad_request.
Proof. reflexivity. Qed.

(** The first value of a repeated key is the one read: an empty first
    [commodity] is rejected though a second one follows. *)
Example scenario_repeated_key :
  fst (handle (std_env {| normalize_century := true |} (mk_datetime 2024 6 5 10 30 0 0))
         (GET_request [("commodity", ""); ("commodity", "Wheat"); ("state", "Punjab")])
         module_init) = Some bad_request.
Proof. reflexivity. Qed.

(** A path no rule matches is left to the framework. *)
Example scenario_unknown_path :
  fst (handle (std_env {| normalize_century := true |} (mk_datetime 2024 6 5 10 30 0 0))
         {| path := "/request/"; args := [] |} module_init) = None.
Proof. reflexivity. Qed.

(** *** The claims *)

(** C1.  A GET to [/request] whose [commodity] or [state] parameter is absent
    or the empty string is answered with status 400 and the JSON body
    [{"error": "Please provide commodity and state"}]; every other GET to
    [/request] is answered with a status other than 400.  This holds whatever
    the clock does. *)
Theorem missing_parameter_is_400 (env : Env) (a : MultiDict) (g : Globals) :
  (absent_or_empty a "commodity" \/ absent_or_empty a "state" ->
   fst (handle env (GET_request a) g) =
   Some {| status := 400;
           body := Json (PyDict [("error", PyStr "Please provide commodity and state")]) |})
  /\ (~ (absent_or_empty a "commodity" \/ absent_or_empty a "state") ->
      exists r, fst (handle env (GET_request a) g) = Some r /\ status r <> 400).
Proof.
  split.
  - intros H. rewrite handle_rejected; [reflexivity |].
    destruct H as [H | H]; [left | right]; now apply absent_or_empty_falsy.
  - intros H.
    destruct (truthy (args_get a "commodity" PyNone)) eqn:Hc;
      [| exfalso; apply H; left; now apply absent_or_empty_falsy].
    destruct (truthy (args_get a "state" PyNone)) eqn:Hs;
      [| exfalso; apply H; right; now apply absent_or_empty_falsy].
    rewrite (handle_accepted env a g Hc Hs).
    destruct (get_price_try_cases env (args_get a "commodity" PyNone)
                (args_get a "state" PyNone) (args_get a "market" (PyStr "")))
      as [[e ->] | [obj ->]]; cbn [fst try_except make_response jsonify];
      eexists; (split; [reflexivity | cbn; discriminate]).
Qed.

(** C2.  On a request that passes validation, the [City] entry of the record
    is the [market] parameter when one is supplied and non-empty, and the
    [state] parameter when [market] is absent or empty. *)
Theorem city_is_market_else_state
    (p : platform) (clock : datetime) (a : MultiDict) (g : Globals) (c s : string) :
  supplied a "commodity" c -> c <> "" ->
  supplied a "state" s -> s <> "" ->
  exists items,
    fst (handle (std_env p clock) (GET_request a) g) =
    Some {| status := 200; body := Json (PyList [PyDict items]) |}
    /\ (forall m, supplied a "market" m -> m <> "" ->
          dict_get items "City" = Some (PyStr m))
    /\ (absent_or_empty a "market" -> dict_get items "City" = Some (PyStr s)).
Proof.
  intros Hc Hcne Hs Hsne.
  rewrite (handle_served p clock a g
             (supplied_truthy _ _ _ Hc Hcne) (supplied_truthy _ _ _ Hs Hsne)).
  eexists. split; [reflexivity |].
  destruct (city_choice a s Hs) as [Hmarket Hstate].
  cbn [dict_get String.eqb Ascii.eqb Bool.eqb].
  split.
  - intros m Hm Hne. now rewrite (Hmarket m Hm Hne).
  - intros Hno. now rewrite (Hstate Hno).
Qed.

Lemma city_is_market_else_state_witness :
  exists items,
    fst (handle (std_env {| normalize_century := false |}
                   (mk_datetime 2024 6 5 10 30 0 0))
           (GET_request [("commodity", "Wheat"); ("state", "Punjab");
                         ("market", "Ludhiana")])
           module_init) =
    Some {| status := 200; body := Json (PyList [PyDict items]) |}
    /\ (forall m,
          supplied [("commodity", "Wheat"); ("state", "Punjab"); ("market", "Ludhiana")]
            "market" m -> m <> "" -> dict_get items "City" = Some (PyStr m))
    /\ (absent_or_empty
          [("commodity", "Wheat"); ("state", "Punjab"); ("market", "Ludhiana")] "market" ->
        dict_get items "City" = Some (PyStr "Punjab")).
Proof.
  apply (city_is_market_else_state _ _ _ _ "Wheat" "Punjab");
    solve [reflexivity | discriminate].
Defined.

(** C3.  On a request that passes validation the response has status 200
    and its body is a JSON array of exactly one element, an object. *)
Theorem success_is_200_one_element
    (p : platform) (clock : datetime) (a : MultiDict) (g : Globals) (c s : string) :
  supplied a "commodity" c -> c <> "" ->
  supplied a "state" s -> s <> "" ->
  exists records,
    fst (handle (std_env p clock) (GET_request a) g) =
    Some {| status := 200; body := Json (PyList records) |}
    /\ List.length records = 1%nat
    /\ exists items, records = [PyDict items].
Proof.
  intros Hc Hcne Hs Hsne.
  rewrite (handle_served p clock a g
             (supplied_truthy _ _ _ Hc Hcne) (supplied_truthy _ _ _ Hs Hsne)).
  eexists. split; [reflexivity |]. split; [reflexivity |].
  eexists. reflexivity.
Qed.

Lemma success_is_200_one_element_witness :
  exists records,
    fst (handle (std_env {| normalize_century := false |}
                   (mk_datetime 2024 6 5 10 30 0 0))
           (GET_request [("commodity", "Wheat"); ("state", "Punjab")])
           module_init) =
    Some {| status := 200; body := Json (PyList records) |}
    /\ List.length records = 1%nat
    /\ exists items, records = [PyDict items].
Proof.
  apply (success_is_200_one_element _ _ _ _ "Wheat" "Punjab");
    solve [reflexivity | discriminate].
Defined.

(** C4.  On a request that passes validation the record has [S.No] equal to
    the string ["1"], [Commodity] equal to the [commodity] parameter as it
    was supplied, and [Min Prize], [Max Prize], [Model Prize] equal to
    ["2200"], ["2400"], ["2300"], whatever the inputs. *)
Theorem fixed_fields_and_commodity
    (p : platform) (clock : datetime) (a : MultiDict) (g : Globals) (c s : string) :
  supplied a "commodity" c -> c <> "" ->
  supplied a "state" s -> s <> "" ->
  exists items,
    fst (handle (std_env p clock) (GET_request a) g) =
    Some {| status := 200; body := Json (PyList [PyDict items]) |}
    /\ dict_get items "S.No" = Some (PyStr "1")
    /\ dict_get items "Commodity" = Some (PyStr c)
    /\ dict_get items "Min Prize" = Some (PyStr "2200")
    /\ dict_get items "Max Prize" = Some (PyStr "2400")
    /\ dict_get items "Model Prize" = Some (PyStr "2300").
Proof.
  intros Hc Hcne Hs Hsne.
  rewrite (handle_served p clock a g
             (supplied_truthy _ _ _ Hc Hcne) (supplied_truthy _ _ _ Hs Hsne)).
  eexists. split; [reflexivity |].
  cbn [dict_get String.eqb Ascii.eqb Bool.eqb].
  rewrite Hc. repeat split; reflexivity.
Qed.

Lemma fixed_fields_and_commodity_witness :
  exists items,
    fst (handle (std_env {| normalize_century := true |}
                   (mk_datetime 2025 12 31 23 59 59 0))
           (GET_request [("state", "Kerala"); ("commodity", "Black pepper")])
           module_init) =
    Some {| status := 200; body := Json (PyList [PyDict items]) |}
    /\ dict_get items "S.No" = Some (PyStr "1")
    /\ dict_get items "Commodity" = Some (PyStr "Black pepper")
    /\ dict_get items "Min Prize" = Some (PyStr "2200")
    /\ dict_get items "Max Prize" = Some (PyStr "2400")
    /\ dict_get items "Model Prize" = Some (PyStr "2300").
Proof.
  apply (fixed_fields_and_commodity _ _ _ _ "Black pepper" "Kerala");
    solve [reflexivity | discriminate].
Defined.

(** C6.  If the record-construction block raises an exception [e] on a
    request that passed validation, the response has status 500 and the JSON
    body [{"error": str(e)}]. *)
Theorem failure_in_try_is_500
    (env : Env) (a : MultiDict) (g : Globals) (c s : string) (e : exn) :
  supplied a "commodity" c -> c <> "" ->
  supplied a "state" s -> s <> "" ->
  get_price_try env (args_get a "commodity" PyNone) (args_get a "state" PyNone)
    (args_get a "market" (PyStr "")) = Raise e ->
  fst (handle env (GET_request a) g) =
  Some {| status := 500; body := Json (PyDict [("error", PyStr (str e))]) |}.
Proof.
  intros Hc Hcne Hs Hsne Hraise.
  rewrite (handle_accepted env a g
             (supplied_truthy _ _ _ Hc Hcne) (supplied_truthy _ _ _ Hs Hsne)).
  rewrite Hraise. reflexivity.
Qed.

Lemma failure_in_try_is_500_witness :
  fst (handle {| datetime_now :=
                   Raise {| exc_class := "OSError";
                            exc_str := "[Errno 22] Invalid argument" |};
                 datetime_strftime := strftime {| normalize_century := true |} |}
         (GET_request [("commodity", "Wheat"); ("state", "Punjab")])
         module_init) =
  Some {| status := 500;
          body := Json (PyDict [("error", PyStr "[Errno 22] Invalid argument")]) |}.
Proof.
  apply (failure_in_try_is_500 _ _ _ "Wheat" "Punjab"
           {| exc_class := "OSError"; exc_str := "[Errno 22] Invalid argument" |});
    solve [reflexivity | discriminate].
Defined.

(** C8.  A GET to [/] is answered with status 200 and the same text on every
    request, whatever the query arguments, the environment and the history;
    the text contains [Agmarknet Scraper API is Running!]. *)
Theorem home_is_200_usage_text (env : Env) (a : MultiDict) (g : Globals) :
  handle env (GET_root a) g =
  (Some {| status := 200;
           body := Text "Agmarknet Scraper API is Running! Use /request?commodity=Wheat&state=Punjab" |},
   g)
  /\ exists before after,
       "Agmarknet Scraper API is Running! Use /request?commodity=Wheat&state=Punjab"
       = before ++ "Agmarknet Scraper API is Running!" ++ after.
Proof.
  split.
  - unfold handle, home.
    cbn [url_map GET_root path String.eqb Ascii.eqb Bool.eqb make_response].
    reflexivity.
  - exists "", " Use /request?commodity=Wheat&state=Punjab". reflexivity.
Qed.



(** C10, as the code has it.  Validation tests truthiness only: for any
    non-empty [commodity] and [state], strings of white space included, the
    request is served, [Commodity] is the [commodity] parameter character for
    character, and [City] is the [state] parameter character for character
    when [market] is absent or empty; a non-empty [market] takes the place of
    [state] in [City], again character for character. *)
Theorem parameters_echoed_verbatim
    (p : platform) (clock : datetime) (a : MultiDict) (g : Globals) (c s : string) :
  supplied a "commodity" c -> c <> "" ->
  supplied a "state" s -> s <> "" ->
  exists items,
    fst (handle (std_env p clock) (GET_request a) g) =
    Some {| status := 200; body := Json (PyList [PyDict items]) |}
    /\ dict_get items "Commodity" = Some (PyStr c)
    /\ (absent_or_empty a "market" -> dict_get items "City" = Some (PyStr s))
    /\ (forall m, supplied a "market" m -> m <> "" ->
          dict_get items "City" = Some (PyStr m)).
Proof.
  intros Hc Hcne Hs Hsne.
  rewrite (handle_served p clock a g
             (supplied_truthy _ _ _ Hc Hcne) (supplied_truthy _ _ _ Hs Hsne)).
  eexists. split; [reflexivity |].
  destruct (city_choice a s Hs) as [Hmarket Hstate].
  cbn [dict_get String.eqb Ascii.eqb Bool.eqb].
  split; [now rewrite Hc |]. split.
  - intros Hno. now rewrite (Hstate Hno).
  - intros m Hm Hne. now rewrite (Hmarket m Hm Hne).
Qed.

Lemma parameters_echoed_verbatim_witness :
  exists items,
    fst (handle (std_env {| normalize_century := false |}
                   (mk_datetime 2024 6 5 10 30 0 0))
           (GET_request [("commodity", "   "); ("state", " ")])
           module_init) =
    Some {| status := 200; body := Json (PyList [PyDict items]) |}
    /\ dict_get items "Commodity" = Some (PyStr "   ")
    /\ (absent_or_empty [("commodity", "   "); ("state", " ")] "market" ->
        dict_get items "City" = Some (PyStr " "))
    /\ (forall m, supplied [("commodity", "   "); ("state", " ")] "market" m ->
          m <> "" -> dict_get items "City" = Some (PyStr m)).
Proof.
  apply (parameters_echoed_verbatim _ _ _ _ "   " " ");
    solve [reflexivity | discriminate].
Defined.

(** C10 as worded fails when [market] is given: with [commodity=Wheat],
    [state=Punjab] and [market=Ludhiana], both required parameters are
    non-empty, yet [City] is [Ludhiana], not the [state] value. *)
Lemma state_not_echoed_when_market_given :
  supplied [("commodity", "Wheat"); ("state", "Punjab"); ("market", "Ludhiana")]
    "commodity" "Wheat"
  /\ supplied [("commodity", "Wheat"); ("state", "Punjab"); ("market", "Ludhiana")]
       "state" "Punjab"
  /\ exists items,
       fst (handle (std_env {| normalize_century := false |}
                      (mk_datetime 2024 6 5 10 30 0 0))
              (GET_request [("commodity", "Wheat"); ("state", "Punjab");
                            ("market", "Ludhiana")])
              module_init) =
       Some {| status := 200; body := Json (PyList [PyDict items]) |}
       /\ dict_get items "City" = Some (PyStr "Ludhiana")
       /\ dict_get items "City" <> Some (PyStr "Punjab").
Proof.
  split; [reflexivity |]. split; [reflexivity |].
  eexists. split; [reflexivity |].
  split; [reflexivity | discriminate].
Qed.

(** *** The date text *)

(** A boolean property checked on every integer of a range holds on the
    range. *)
Lemma Z_range_check (P : Z -> bool) (lo : Z) (n : nat) :
  forallb P (map (fun i => lo + Z.of_nat i)%Z (seq 0 n)) = true ->
  forall z, (lo <= z < lo + Z.of_nat n)%Z -> P z = true.
Proof.
  intros H z Hz. rewrite forallb_forall in H. apply H.
  apply in_map_iff. exists (Z.to_nat (z - lo)). split; [lia |].
  apply in_seq. lia.
Qed.

Lemma day_two_digits (d : Z) :
  (1 <= d <= 31)%Z -> two_digits_of (zfill 2 (dec d)) d = true.
Proof.
  intros H.
  apply (Z_range_check (fun z => two_digits_of (zfill 2 (dec z)) z) 1 31);
    [vm_compute; reflexivity | lia].
Qed.

Lemma month_abbreviated (m : Z) :
  (1 <= m <= 12)%Z ->
  String.length (nth (Z.to_nat (m - 1)) abmon "") = 3%nat
  /\ lookup (nth (Z.to_nat (m - 1)) abmon "") month_abbreviations = Some m.
Proof.
  intros H.
  assert (m = 1 \/ m = 2 \/ m = 3 \/ m = 4 \/ m = 5 \/ m = 6 \/ m = 7 \/ m = 8
          \/ m = 9 \/ m = 10 \/ m = 11 \/ m = 12)%Z as Hm by lia.
  repeat (destruct Hm as [-> | Hm]; [split; reflexivity |]).
  subst m. split; reflexivity.
Qed.

Lemma year_four_digits_padded (y : Z) :
  (0 <= y <= 9999)%Z -> four_digits_of (zfill 4 (dec y)) y = true.
Proof.
  intros H.
  apply (Z_range_check (fun z => four_digits_of (zfill 4 (dec z)) z) 0 (Z.to_nat 10000));
    [vm_compute; reflexivity | lia].
Qed.

Lemma year_four_digits_plain (y : Z) :
  (1000 <= y <= 9999)%Z -> four_digits_of (dec y) y = true.
Proof.
  intros H.
  apply (Z_range_check (fun z => four_digits_of (dec z) z) 1000 (Z.to_nat 9000));
    [vm_compute; reflexivity | lia].
Qed.

(** Day, month and year numerals put together with single spaces parse back
    to the three numbers. *)
Lemma parse_assembled (dd mon yyyy : string) (d m y : Z) :
  two_digits_of dd d = true ->
  String.length mon = 3%nat ->
  lookup mon month_abbreviations = Some m ->
  four_digits_of yyyy y = true ->
  parse_DD_Mon_YYYY (dd ++ " " ++ mon ++ " " ++ yyyy) = Some (d, m, y).
Proof.
  intros Hd Hlen Hm Hy.
  destruct dd as [|d1 [|d2 [|? ?]]]; try discriminate Hd.
  destruct mon as [|m1 [|m2 [|m3 [|? ?]]]]; try discriminate Hlen.
  destruct yyyy as [|y1 [|y2 [|y3 [|y4 [|? ?]]]]]; try discriminate Hy.
  unfold two_digits_of in Hd. unfold four_digits_of in Hy.
  cbn [list_ascii_of_string forallb] in Hd, Hy.
  repeat rewrite andb_true_iff in Hd. repeat rewrite andb_true_iff in Hy.
  destruct Hd as [[Hd1 Hd2] Hdv].
  destruct Hy as [[Hy1 [Hy2 [Hy3 [Hy4 _]]]] Hyv].
  apply Z.eqb_eq in Hdv, Hyv.
  unfold parse_DD_Mon_YYYY.
  cbn [String.append list_ascii_of_string forallb string_of_list_ascii].
  rewrite Hd1, Hd2, Hy1, Hy2, Hy3, Hy4.
  cbn [andb Ascii.eqb Bool.eqb].
  cbn [string_of_list_ascii] in Hm. rewrite Hm, Hdv, Hyv. reflexivity.
Qed.

(** A digit is determined by its value. *)
Lemma digit_val_range (c : ascii) :
  is_digit c = true -> (0 <= digit_val c <= 9)%Z.
Proof.
  unfold is_digit, digit_val. rewrite andb_true_iff, !N.leb_le. lia.
Qed.

Lemma digit_val_inj (c c' : ascii) :
  digit_val c = digit_val c' -> c = c'.
Proof.
  unfold digit_val. intros H.
  rewrite <- (ascii_N_embedding c), <- (ascii_N_embedding c').
  f_equal. lia.
Qed.

(** An abbreviation of the table is determined by its month number. *)
Lemma lookup_month_key (s : string) (m : Z) :
  lookup s month_abbreviations = Some m ->
  s = nth (Z.to_nat (m - 1)) abmon "".
Proof.
  unfold month_abbreviations. cbn [lookup].
  repeat match goal with
         | |- context [if (?k =? s)%string then _ else _] =>
             destruct (String.eqb_spec k s) as [<- | _];
             [intros [= <-]; reflexivity |]
         end.
  discriminate.
Qed.

(** The pattern leaves no choice: two texts that denote the same date under
    it are the same text. *)
Lemma parse_DD_Mon_YYYY_inj (s1 s2 : string) (t : Z * Z * Z) :
  parse_DD_Mon_YYYY s1 = Some t -> parse_DD_Mon_YYYY s2 = Some t -> s1 = s2.
Proof.
  assert (forall s d m y,
            parse_DD_Mon_YYYY s = Some (d, m, y) ->
            exists d1 d2 y1 y2 y3 y4,
              s = String d1 (String d2 (" " ++ nth (Z.to_nat (m - 1)) abmon "" ++ " "
                    ++ String y1 (String y2 (String y3 (String y4 ""))))) 
              /\ forallb is_digit [d1; d2; y1; y2; y3; y4] = true
              /\ (10 * digit_val d1 + digit_val d2 = d)%Z
              /\ (1000 * digit_val y1 + 100 * digit_val y2
                  + 10 * digit_val y3 + digit_val y4 = y)%Z) as shape.
  { intros s d m y. unfold parse_DD_Mon_YYYY.
    destruct (list_ascii_of_string s)
      as [|d1 [|d2 [|sp1 [|m1 [|m2 [|m3 [|sp2 [|y1 [|y2 [|y3 [|y4 [|? ?]]]]]]]]]]]] eqn:Hl;
      try discriminate.
    destruct (forallb is_digit [d1; d2; y1; y2; y3; y4]) eqn:Hdig; [| discriminate].
    destruct (Ascii.eqb_spec sp1 " ") as [-> |]; [| discriminate].
    destruct (Ascii.eqb_spec sp2 " ") as [-> |]; [| discriminate].
    cbn [andb].
    destruct (lookup _ month_abbreviations) as [m' |] eqn:Hlook; [| discriminate].
    intros [= <- <- <-].
    exists d1, d2, y1, y2, y3, y4.
    split; [| split; [exact Hdig | split; reflexivity]].
    rewrite <- (string_of_list_ascii_of_string s), Hl.
    cbn [string_of_list_ascii String.append].
    apply lookup_month_key in Hlook. cbn [string_of_list_ascii] in Hlook.
    rewrite <- Hlook. reflexivity. }
  destruct t as [[d m] y]. intros H1 H2.
  destruct (shape _ _ _ _ H1) as (a1 & a2 & b1 & b2 & b3 & b4 & -> & Ha & Hda & Hya).
  destruct (shape _ _ _ _ H2) as (c1 & c2 & e1 & e2 & e3 & e4 & -> & Hc & Hdc & Hyc).
  cbn [forallb] in Ha, Hc. rewrite !andb_true_iff in Ha, Hc.
  destruct Ha as (Ha1 & Ha2 & Hb1 & Hb2 & Hb3 & Hb4 & _).
  destruct Hc as (Hc1 & Hc2 & He1 & He2 & He3 & He4 & _).
  apply digit_val_range in Ha1, Ha2, Hb1, Hb2, Hb3, Hb4, Hc1, Hc2, He1, He2, He3, He4.
  assert (a1 = c1) as -> by (apply digit_val_inj; lia).
  assert (a2 = c2) as -> by (apply digit_val_inj; lia).
  assert (b1 = e1) as -> by (apply digit_val_inj; lia).
  assert (b2 = e2) as -> by (apply digit_val_inj; lia).
  assert (b3 = e3) as -> by (apply digit_val_inj; lia).
  assert (b4 = e4) as -> by (apply digit_val_inj; lia).
  reflexivity.
Qed.

(** C5.  On a request that passes validation, the [Date] entry is the date of
    the clock reading written as two-digit day, three-letter month
    abbreviation and four-digit year with single spaces between them: it
    parses under that pattern to the reading's day, month and year, and it is
    the only text that does.  The reading is any valid date whose year has
    four digits, or any valid date at all where the interpreter pads [%Y]. *)
Theorem date_is_DD_Mon_YYYY
    (p : platform) (clock : datetime) (a : MultiDict) (g : Globals) (c s : string) :
  supplied a "commodity" c -> c <> "" ->
  supplied a "state" s -> s <> "" ->
  valid_date clock ->
  normalize_century p = true \/ (1000 <= year clock)%Z ->
  exists items date,
    fst (handle (std_env p clock) (GET_request a) g) =
    Some {| status := 200; body := Json (PyList [PyDict items]) |}
    /\ dict_get items "Date" = Some (PyStr date)
    /\ String.length date = 11%nat
    /\ parse_DD_Mon_YYYY date = Some (day clock, month clock, year clock)
    /\ forall text,
         parse_DD_Mon_YYYY text = Some (day clock, month clock, year clock) ->
         text = date.
Proof.
  intros Hc Hcne Hs Hsne [Hyear [Hmonth Hday]] Hpad.
  unfold MINYEAR, MAXYEAR in Hyear.
  rewrite (handle_served p clock a g
             (supplied_truthy _ _ _ Hc Hcne) (supplied_truthy _ _ _ Hs Hsne)).
  do 2 eexists. split; [reflexivity |].
  cbn [dict_get String.eqb Ascii.eqb Bool.eqb].
  split; [reflexivity |].
  destruct (month_abbreviated (month clock) Hmonth) as [Hlen Hlook].
  assert (four_digits_of
            (if normalize_century p then zfill 4 (dec (year clock))
             else dec (year clock)) (year clock) = true) as Hy.
  { destruct (normalize_century p).
    - apply year_four_digits_padded. lia.
    - apply year_four_digits_plain. destruct Hpad; [discriminate | lia]. }
  pose proof (parse_assembled _ _ _ _ _ _
                (day_two_digits (day clock) Hday) Hlen Hlook Hy) as Hparse.
  split; [| split; [exact Hparse |]].
  - unfold parse_DD_Mon_YYYY in Hparse.
    destruct (list_ascii_of_string _)
      as [|? [|? [|? [|? [|? [|? [|? [|? [|? [|? [|? [|? ?]]]]]]]]]]]] eqn:Hl;
      try discriminate Hparse.
    rewrite <- (string_of_list_ascii_of_string (_ ++ _)), Hl. reflexivity.
  - intros text Htext. exact (parse_DD_Mon_YYYY_inj _ _ _ Htext Hparse).
Qed.

Lemma date_is_DD_Mon_YYYY_witness :
  exists items date,
    fst (handle (std_env {| normalize_century := false |}
                   (mk_datetime 2024 6 5 10 30 0 0))
           (GET_request [("commodity", "Wheat"); ("state", "Punjab")])
           module_init) =
    Some {| status := 200; body := Json (PyList [PyDict items]) |}
    /\ dict_get items "Date" = Some (PyStr date)
    /\ String.length date = 11%nat
    /\ parse_DD_Mon_YYYY date = Some (5, 6, 2024)%Z
    /\ forall text, parse_DD_Mon_YYYY text = Some (5, 6, 2024)%Z -> text = date.
Proof.
  apply (date_is_DD_Mon_YYYY {| normalize_century := false |}
           (mk_datetime 2024 6 5 10 30 0 0) _ _ "Wheat" "Punjab");
    try solve [reflexivity | discriminate].
  - unfold valid_date, MINYEAR, MAXYEAR. cbn. lia.
  - right. cbn. lia.
Defined.

(** *** Requests in sequence *)

(** Neither view assigns a module-level name. *)
Lemma handle_keeps_globals (env : Env) (req : Request) (g : Globals) :
  snd (handle env req g) = g.
Proof.
  unfold handle. destruct (url_map (path req)) as [[|] |]; cbn [snd].
  - unfold home. reflexivity.
  - unfold get_price.
    destruct (negb (truthy (args_get (args req) "commodity" PyNone))
              || negb (truthy (args_get (args req) "state" PyNone)));
      reflexivity.
  - reflexivity.
Qed.

(** Neither view reads one. *)
Lemma handle_ignores_globals (env : Env) (req : Request) (g1 g2 : Globals) :
  fst (handle env req g1) = fst (handle env req g2).
Proof.
  unfold handle. destruct (url_map (path req)) as [[|] |]; cbn [fst].
  - reflexivity.
  - unfold get_price.
    destruct (negb (truthy (args_get (args req) "commodity" PyNone))
              || negb (truthy (args_get (args req) "state" PyNone)));
      reflexivity.
  - reflexivity.
Qed.

Lemma serve_keeps_globals (g : Globals) (reqs : list (Env * Request)) :
  snd (serve g reqs) = g.
Proof.
  revert g. induction reqs as [|[env req] rest IH]; intros g; cbn [serve].
  - reflexivity.
  - pose proof (handle_keeps_globals env req g) as Hh.
    destruct (handle env req g) as [r g1]. cbn [snd] in Hh. subst g1.
    specialize (IH g). destruct (serve g rest) as [rs g2]. exact IH.
Qed.

(** The responses of a run, one request at a time. *)
Lemma serve_snoc (g : Globals) (reqs : list (Env * Request)) (env : Env) (req : Request) :
  fst (serve g (reqs ++ [(env, req)]%list)%list) =
  (fst (serve g reqs) ++ [fst (handle env req g)])%list.
Proof.
  revert g. induction reqs as [|[env' req'] rest IH]; intros g; cbn [serve app].
  - destruct (handle env req g) as [r g1]. reflexivity.
  - pose proof (handle_keeps_globals env' req' g) as Hh.
    destruct (handle env' req' g) as [r g1]. cbn [snd] in Hh. subst g1.
    specialize (IH g).
    destruct (serve g (rest ++ [(env, req)])%list) as [rs g2].
    destruct (serve g rest) as [rs' g3]. cbn [fst] in *.
    now rewrite IH.
Qed.

Lemma strftime_same_date (p : platform) (d1 d2 : datetime) :
  same_date d1 d2 -> strftime p d1 "%d %b %Y" = strftime p d2 "%d %b %Y".
Proof.
  intros [Hy [Hm Hd]]. rewrite !strftime_d_b_Y, Hy, Hm, Hd. reflexivity.
Qed.

(** The time of day of the clock reading does not reach the response. *)
Lemma handle_same_date (p : platform) (d1 d2 : datetime) (req : Request) (g : Globals) :
  same_date d1 d2 ->
  handle (std_env p d1) req g = handle (std_env p d2) req g.
Proof.
  intros Hsame. unfold handle, get_price, get_price_try, std_env.
  cbn [datetime_now datetime_strftime bind].
  now rewrite (strftime_same_date p d1 d2 Hsame).
Qed.

(** C7.  The handler keeps no state and is a function of the query
    parameters and the calendar date: whatever requests were served before,
    in whatever environments and from whatever globals, two requests to
    [/request] with the same query arguments, served on the same date, get
    the same response (status and body), which is the response of the handler
    run on its own; and a run of the server leaves the module's globals as
    it found them, so nothing passes from one request to the next. *)
Theorem responses_are_stateless
    (p : platform) (d1 d2 : datetime) (a : MultiDict) (g1 g2 : Globals)
    (before1 before2 : list (Env * Request)) :
  same_date d1 d2 ->
  last (fst (serve g1 (before1 ++ [(std_env p d1, GET_request a)])%list)) None
  = last (fst (serve g2 (before2 ++ [(std_env p d2, GET_request a)])%list)) None
  /\ last (fst (serve g1 (before1 ++ [(std_env p d1, GET_request a)])%list)) None
     = fst (handle (std_env p d1) (GET_request a) module_init)
  /\ snd (serve g1 (before1 ++ [(std_env p d1, GET_request a)])%list) = g1.
Proof.
  intros Hsame. rewrite !serve_snoc, !last_last.
  split; [| split].
  - rewrite (handle_same_date p d1 d2 _ g1 Hsame).
    apply handle_ignores_globals.
  - apply handle_ignores_globals.
  - apply serve_keeps_globals.
Qed.

Lemma responses_are_stateless_witness :
  last (fst (serve module_init
               ([] ++ [(std_env {| normalize_century := false |}
                          (mk_datetime 2024 6 5 0 0 1 0),
                        GET_request [("commodity", "Wheat"); ("state", "Punjab")])])%list))
    None
  = last (fst (serve {| BASE_URL := "http://localhost/" |}
                 ([(std_env {| normalize_century := true |}
                      (mk_datetime 2023 1 1 9 0 0 0),
                    GET_request [("state", "Goa")]);
                   ({| datetime_now :=
                         Raise {| exc_class := "OSError"; exc_str := "clock" |};
                       datetime_strftime := strftime {| normalize_century := true |} |},
                    GET_request [("commodity", "Rice"); ("state", "Goa")])]
                  ++ [(std_env {| normalize_century := false |}
                         (mk_datetime 2024 6 5 23 59 59 999999),
                       GET_request [("commodity", "Wheat"); ("state", "Punjab")])])%list))
      None
  /\ last (fst (serve module_init
                  ([] ++ [(std_env {| normalize_century := false |}
                             (mk_datetime 2024 6 5 0 0 1 0),
                           GET_request [("commodity", "Wheat"); ("state", "Punjab")])])%list))
       None
     = fst (handle (std_env {| normalize_century := false |}
                      (mk_datetime 2024 6 5 0 0 1 0))
              (GET_request [("commodity", "Wheat"); ("state", "Punjab")]) module_init)
  /\ snd (serve module_init
            ([] ++ [(std_env {| normalize_century := false |}
                       (mk_datetime 2024 6 5 0 0 1 0),
                     GET_request [("commodity", "Wheat"); ("state", "Punjab")])])%list)
     = module_init.
Proof.
  apply (responses_are_stateless {| normalize_century := false |}
           (mk_datetime 2024 6 5 0 0 1 0) (mk_datetime 2024 6 5 23 59 59 999999)).
  repeat split.
Defined.

(** *** Further properties of [get_price] *)

(** The outcome of a request to [/request] is one of three, and each is
    decided by the query and by whether a clock call raised: 400 exactly
    when a required parameter is absent or empty; otherwise 500 with the
    exception's text exactly when [datetime.now()] or [strftime] raised;
    otherwise 200.  No other status leaves the handler. *)
Theorem get_price_three_outcomes (env : Env) (a : MultiDict) (g : Globals) :
  exists r,
    fst (handle env (GET_request a) g) = Some r
    /\ ((status r = 400
         /\ (absent_or_empty a "commodity" \/ absent_or_empty a "state"))
        \/ (status r = 500
            /\ ~ (absent_or_empty a "commodity" \/ absent_or_empty a "state")
            /\ exists e,
                 r = server_error e
                 /\ (datetime_now env = Raise e
                     \/ exists t, datetime_now env = Ok t
                                  /\ datetime_strftime env t "%d %b %Y" = Raise e))
        \/ (status r = 200
            /\ ~ (absent_or_empty a "commodity" \/ absent_or_empty a "state")
            /\ exists t date,
                 datetime_now env = Ok t
                 /\ datetime_strftime env t "%d %b %Y" = Ok date)).
Proof.
  destruct (truthy (args_get a "commodity" PyNone)) eqn:Hc;
    [destruct (truthy (args_get a "state" PyNone)) eqn:Hs |].
  - assert (~ (absent_or_empty a "commodity" \/ absent_or_empty a "state")) as Hok.
    { intros [H | H]; apply absent_or_empty_falsy in H; congruence. }
    rewrite (handle_accepted env a g Hc Hs). unfold get_price_try.
    destruct (datetime_now env) as [t | e] eqn:Hnow; cbn [bind].
    + destruct (datetime_strftime env t "%d %b %Y") as [date | e] eqn:Hfmt;
        cbn [bind try_except make_response fst].
      * eexists. split; [reflexivity |]. right. right.
        split; [reflexivity |]. split; [exact Hok |].
        exists t, date. now split.
      * eexists. split; [reflexivity |]. right. left.
        split; [reflexivity |]. split; [exact Hok |].
        exists e. split; [reflexivity |]. right. exists t. now split.
    + cbn [try_except make_response fst].
      eexists. split; [reflexivity |]. right. left.
      split; [reflexivity |]. split; [exact Hok |].
      exists e. split; [reflexivity | now left].
  - rewrite handle_rejected by now right.
    eexists. split; [reflexivity |]. left. split; [reflexivity |].
    right. now apply absent_or_empty_falsy.
  - rewrite handle_rejected by now left.
    eexists. split; [reflexivity |]. left. split; [reflexivity |].
    left. now apply absent_or_empty_falsy.
Qed.




(** Reading a key is blind to a pair of another key, and to a pair that
    follows an earlier pair of the same key. *)
Lemma args_get_skip (a1 a2 : MultiDict) (k v key : string) (d : pyobj) :
  k <> key \/ (exists v0, In (k, v0) a1) ->
  args_get (a1 ++ (k, v) :: a2)%list key d = args_get (a1 ++ a2)%list key d.
Proof.
  intros H. induction a1 as [|[k1 v1] rest IH]; cbn [app args_get].
  - destruct H as [Hne | [v0 []]].
    destruct (String.eqb_spec k key); [contradiction | reflexivity].
  - destruct (String.eqb_spec k1 key) as [-> | Hk1]; [reflexivity |].
    apply IH. destruct H as [Hne | [v0 [Hin | Hin]]].
    + now left.
    + injection Hin as -> ->. now left.
    + right. now exists v0.
Qed.

(** A query parameter other than [commodity], [state] and [market] never
    changes the outcome, wherever it stands in the query string. *)
Theorem other_parameters_are_ignored
    (env : Env) (a1 a2 : MultiDict) (k v : string) (g : Globals) :
  k <> "commodity" -> k <> "state" -> k <> "market" ->
  handle env (GET_request (a1 ++ (k, v) :: a2)%list) g
  = handle env (GET_request (a1 ++ a2)%list) g.
Proof.
  intros Hc Hs Hm. unfold handle, get_price.
  cbn [url_map GET_request path args String.eqb Ascii.eqb Bool.eqb].
  rewrite !(args_get_skip a1 a2 k v) by now left. reflexivity.
Qed.

Lemma other_parameters_are_ignored_witness :
  handle (std_env {| normalize_century := false |} (mk_datetime 2024 6 5 10 30 0 0))
    (GET_request ([("commodity", "Wheat")]
                  ++ ("Commodity", "Rice") :: [("state", "Punjab")])%list)
    module_init
  = handle (std_env {| normalize_century := false |} (mk_datetime 2024 6 5 10 30 0 0))
      (GET_request ([("commodity", "Wheat")] ++ [("state", "Punjab")])%list)
      module_init.
Proof.
  apply (other_parameters_are_ignored _ [("commodity", "Wheat")] [("state", "Punjab")]
           "Commodity" "Rice"); discriminate.
Defined.

(** Of a parameter given several times only the first occurrence counts:
    a later pair of a key that already occurred never changes the outcome. *)
Theorem first_occurrence_decides
    (env : Env) (a1 a2 : MultiDict) (k v v0 : string) (g : Globals) :
  In (k, v0) a1 ->
  handle env (GET_request (a1 ++ (k, v) :: a2)%list) g
  = handle env (GET_request (a1 ++ a2)%list) g.
Proof.
  intros Hin. unfold handle, get_price.
  cbn [url_map GET_request path args String.eqb Ascii.eqb Bool.eqb].
  rewrite !(args_get_skip a1 a2 k v) by (right; now exists v0). reflexivity.
Qed.

Lemma first_occurrence_decides_witness :
  handle (std_env {| normalize_century := false |} (mk_datetime 2024 6 5 10 30 0 0))
    (GET_request ([("commodity", "Wheat"); ("state", "")]
                  ++ ("state", "Punjab") :: [("market", "Ludhiana")])%list)
    module_init
  = handle (std_env {| normalize_century := false |} (mk_datetime 2024 6 5 10 30 0 0))
      (GET_request ([("commodity", "Wheat"); ("state", "")]
                    ++ [("market", "Ludhiana")])%list)
      module_init.
Proof.
  apply (first_occurrence_decides _ [("commodity", "Wheat"); ("state", "")]
           [("market", "Ludhiana")] "state" "Punjab" "").
  right. now left.
Defined.

(** The date text of a valid clock reading parses back to the reading's
    calendar date. *)
Lemma date_text_parses (p : platform) (d : datetime) :
  valid_date d ->
  normalize_century p = true \/ (1000 <= year d)%Z ->
  parse_DD_Mon_YYYY
    (zfill 2 (dec (day d)) ++ " "
     ++ nth (Z.to_nat (month d - 1)) abmon "" ++ " "
     ++ (if normalize_century p then zfill 4 (dec (year d)) else dec (year d)))
  = Some (day d, month d, year d).
Proof.
  intros [Hyear [Hmonth Hday]] Hpad. unfold MINYEAR, MAXYEAR in Hyear.
  destruct (month_abbreviated (month d) Hmonth) as [Hlen Hlook].
  apply parse_assembled; try assumption.
  - now apply day_two_digits.
  - destruct (normalize_century p).
    + apply year_four_digits_padded. lia.
    + apply year_four_digits_plain. destruct Hpad; [discriminate | lia].
Qed.

(** For a request that passes validation, two valid clock readings give the
    same response exactly when they fall on the same calendar day: the time
    of day never shows, and a change of day always does. *)
Theorem same_response_iff_same_day
    (p : platform) (d1 d2 : datetime) (a : MultiDict) (g : Globals) (c s : string) :
  supplied a "commodity" c -> c <> "" ->
  supplied a "state" s -> s <> "" ->
  valid_date d1 -> valid_date d2 ->
  normalize_century p = true \/ (1000 <= year d1 /\ 1000 <= year d2)%Z ->
  fst (handle (std_env p d1) (GET_request a) g)
  = fst (handle (std_env p d2) (GET_request a) g)
  <-> same_date d1 d2.
Proof.
  intros Hc Hcne Hs Hsne Hv1 Hv2 Hpad. split.
  - rewrite !(handle_served p _ a g
                (supplied_truthy _ _ _ Hc Hcne) (supplied_truthy _ _ _ Hs Hsne)).
    cbn [fst].
    pose proof (date_text_parses p d1 Hv1) as Hp1.
    pose proof (date_text_parses p d2 Hv2) as Hp2.
    remember (zfill 2 (dec (day d1)) ++ " "
              ++ nth (Z.to_nat (month d1 - 1)) abmon "" ++ " "
              ++ (if normalize_century p then zfill 4 (dec (year d1))
                  else dec (year d1))) as text1.
    remember (zfill 2 (dec (day d2)) ++ " "
              ++ nth (Z.to_nat (month d2 - 1)) abmon "" ++ " "
              ++ (if normalize_century p then zfill 4 (dec (year d2))
                  else dec (year d2))) as text2.
    intros Heq. assert (text1 = text2) as Htext by congruence.
    rewrite Htext, Hp2 in Hp1.
    + assert (Some (day d2, month d2, year d2) = Some (day d1, month d1, year d1))
        as Hdates by (apply Hp1; tauto).
      injection Hdates as Hd Hm Hy. now repeat split.
    + tauto.
  - intros Hsame. now rewrite (handle_same_date p d1 d2 _ g Hsame).
Qed.

Lemma same_response_iff_same_day_witness :
  fst (handle (std_env {| normalize_century := false |}
                 (mk_datetime 2024 12 31 23 59 59 0))
         (GET_request [("commodity", "Wheat"); ("state", "Punjab")]) module_init)
  = fst (handle (std_env {| normalize_century := false |}
                   (mk_datetime 2025 1 1 0 0 0 0))
           (GET_request [("commodity", "Wheat"); ("state", "Punjab")]) module_init)
  <-> same_date (mk_datetime 2024 12 31 23 59 59 0) (mk_datetime 2025 1 1 0 0 0 0).
Proof.
  apply (same_response_iff_same_day _ _ _ _ _ "Wheat" "Punjab");
    try solve [reflexivity | discriminate].
  - unfold valid_date, MINYEAR, MAXYEAR. cbn. lia.
  - unfold valid_date, MINYEAR, MAXYEAR. cbn. lia.
  - right. cbn. lia.
Defined.

(** *** Start-up *)

Import Startup.

Lemma digit_is_plain (c : ascii) :
  is_digit c = true ->
  Py_ISSPACE c = false /\ c <> "+"%char /\ c <> "-"%char /\ c <> "_"%char.
Proof.
  intros H. repeat split; try (intros ->; discriminate H).
  unfold is_digit in H. unfold Py_ISSPACE. cbv zeta.
  apply andb_true_iff in H. destruct H as [H1 H2].
  apply N.leb_le in H1. apply N.leb_le in H2.
  destruct (N.leb_spec 9 (N_of_ascii c)), (N.leb_spec (N_of_ascii c) 13),
    (N.eqb_spec (N_of_ascii c) 32); cbn; try reflexivity; lia.
Qed.

Lemma space_is_plain (c : ascii) :
  Py_ISSPACE c = true -> is_digit c = false /\ Ascii.eqb c "_" = false.
Proof.
  intros H. split.
  - destruct (is_digit c) eqn:Hd; [| reflexivity].
    apply digit_is_plain in Hd. destruct Hd as [Hd _]. congruence.
  - destruct (Ascii.eqb_spec c "_") as [-> |]; [discriminate H | reflexivity].
Qed.

(** Scanning a decimal numeral consumes it whole and accumulates its
    value. *)
Lemma scan_digits_numeral (u : Decimal.uint) (acc : Z) (k : nat) :
  scan_digits (NilEmpty.string_of_uint u) false acc k =
  Some ((acc * 10 ^ Z.of_N (DecimalPos.Unsigned.usize u)
         + Z.of_N (DecimalPos.Unsigned.of_lu (Decimal.rev u)))%Z,
        (k + Decimal.nb_digits u)%nat, "").
Proof.
  assert (forall (v v' : Z) (n n' : nat),
            v = v' -> n = n' -> Some (v, n, "") = Some (v', n', "")) as Hsame
    by (intros; subst; reflexivity).
  revert acc k.
  induction u; intros acc k;
    cbn [NilEmpty.string_of_uint scan_digits Decimal.nb_digits DecimalPos.Unsigned.usize].
  1: { cbn. apply Hsame; [ring | lia]. }
  all: change (is_digit _) with true; cbv iota; rewrite IHu.
  all: match goal with
       | |- context [Decimal.rev (?D ?v)] =>
           change (Decimal.rev (D v)) with (Decimal.revapp v (D Decimal.Nil));
           rewrite (DecimalPos.Unsigned.of_lu_revapp v (D Decimal.Nil))
       end.
  all: rewrite N2Z.inj_add, N2Z.inj_mul, N2Z.inj_pow, N2Z.inj_succ.
  all: rewrite Z.pow_succ_r by apply N2Z.is_nonneg.
  all: repeat match goal with
         | |- context [digit_val ?c] =>
             let v := eval vm_compute in (digit_val c) in
             change (digit_val c) with v
         | |- context [Z.of_N (DecimalPos.Unsigned.of_lu (?D Decimal.Nil))] =>
             let v := eval vm_compute in
                        (Z.of_N (DecimalPos.Unsigned.of_lu (D Decimal.Nil))) in
             change (Z.of_N (DecimalPos.Unsigned.of_lu (D Decimal.Nil))) with v
         end.
  all: change (Z.of_N 10) with 10%Z.
  all: apply Hsame; [ring | lia].
Qed.

Lemma numeral_length (u : Decimal.uint) :
  String.length (NilEmpty.string_of_uint u) = Decimal.nb_digits u.
Proof.
  induction u; cbn [NilEmpty.string_of_uint String.length Decimal.nb_digits];
    congruence.
Qed.

Lemma numeral_head (u : Decimal.uint) :
  u <> Decimal.Nil ->
  exists c r, NilEmpty.string_of_uint u = String c r /\ is_digit c = true.
Proof.
  destruct u; [congruence | ..]; intros _;
    cbn [NilEmpty.string_of_uint]; do 2 eexists; split; reflexivity.
Qed.

Lemma skip_spaces_nonspace (c : ascii) (r : string) :
  Py_ISSPACE c = false -> skip_spaces (String c r) = String c r.
Proof. intros H. cbn [skip_spaces]. now rewrite H. Qed.

(** [int] on a text that starts with a digit, with or without a minus sign
    before it: no white space is skipped and the digits are scanned from the
    first one. *)
Lemma int_str_digit_head (lim : nat) (neg : bool) (c : ascii) (r : string) :
  is_digit c = true ->
  int_str lim (if neg then String "-" (String c r) else String c r) =
  match scan_digits (String c r) false 0 0 with
  | None => None
  | Some (v, digits, rest) =>
      if Nat.eqb digits 0 then None
      else if (MAX_STR_DIGITS_THRESHOLD <? digits)%nat
              && (0 <? lim)%nat && (lim <? digits)%nat
      then None
      else match skip_spaces rest with
           | EmptyString => Some (if neg then - v else v)%Z
           | _ => None
           end
  end.
Proof.
  intros Hc. destruct (digit_is_plain c Hc) as (Hsp & Hplus & Hminus & Hus).
  apply Ascii.eqb_neq in Hplus, Hminus, Hus.
  unfold int_str. destruct neg.
  - rewrite (skip_spaces_nonspace "-" _ eq_refl).
    cbn [starts_with tail]. change (Ascii.eqb "-" "+") with false.
    change (Ascii.eqb "-" "-") with true. cbn [orb starts_with].
    now rewrite Hus.
  - rewrite (skip_spaces_nonspace c r Hsp).
    cbn [starts_with tail]. rewrite Hplus, Hminus. cbn [orb starts_with].
    now rewrite Hus.
Qed.

(** [int(str(n))] is [n], for every integer whose numeral stays under the
    threshold of the digit limit. *)
Lemma int_str_dec (lim : nat) (n : Z) :
  (String.length (dec n) <= MAX_STR_DIGITS_THRESHOLD)%nat ->
  int_str lim (dec n) = Some n.
Proof.
  assert (forall (p : positive) (neg : bool),
            (Decimal.nb_digits (Pos.to_uint p) <= MAX_STR_DIGITS_THRESHOLD)%nat ->
            int_str lim (if neg
                         then String "-" (NilEmpty.string_of_uint (Pos.to_uint p))
                         else NilEmpty.string_of_uint (Pos.to_uint p))
            = Some (if neg then Z.neg p else Z.pos p)) as Hpos.
  { intros p neg Hlen.
    destruct (numeral_head _ (DecimalPos.Unsigned.to_uint_nonnil p))
      as (c & r & Hs & Hc).
    rewrite Hs, (int_str_digit_head lim neg c r Hc), <- Hs.
    rewrite scan_digits_numeral.
    rewrite <- DecimalPos.Unsigned.of_uint_alt, DecimalPos.Unsigned.of_to.
    cbn [Nat.add Z.mul Z.add Z.of_N skip_spaces].
    pose proof (DecimalPos.Unsigned.to_uint_nonnil p) as Hnil.
    destruct (Decimal.nb_digits (Pos.to_uint p)) as [|k] eqn:Hk;
      [apply DecimalFacts.nb_digits_0 in Hk; contradiction |].
    cbn [Nat.eqb].
    apply Nat.ltb_ge in Hlen. rewrite Hlen. cbn [andb].
    destruct neg; reflexivity. }
  unfold dec. destruct n as [|p|p]; cbn [Z.to_int NilZero.string_of_int].
  - intros _. reflexivity.
  - intros Hlen. unfold NilZero.string_of_uint in *.
    pose proof (DecimalPos.Unsigned.to_uint_nonnil p) as Hnil.
    destruct (Pos.to_uint p) eqn:Hu; [contradiction | ..];
      rewrite <- Hu in *; rewrite numeral_length in Hlen;
      apply (Hpos p false Hlen).
  - intros Hlen. unfold NilZero.string_of_uint in *.
    pose proof (DecimalPos.Unsigned.to_uint_nonnil p) as Hnil.
    destruct (Pos.to_uint p) eqn:Hu; [contradiction | ..];
      rewrite <- Hu in *; cbn [String.length] in Hlen;
      rewrite numeral_length in Hlen;
      apply (Hpos p true); lia.
Qed.

(** With [PORT] not set, whatever else the environment holds, [app.run] is
    called on all interfaces with port 5000. *)
Theorem port_defaults_to_5000 (lim : nat) (environ : Environ) :
  environ "PORT" = None ->
  main "__main__" lim environ = AppRun "0.0.0.0" 5000.
Proof.
  intros Hunset. unfold main, environ_get, int.
  change ("__main__" =? "__main__") with true. cbv iota.
  now rewrite Hunset.
Qed.

Lemma port_defaults_to_5000_witness :
  main "__main__" 4300 (fun k => if k =? "HOME" then Some "/root" else None)
  = AppRun "0.0.0.0" 5000.
Proof.
  apply (port_defaults_to_5000 4300
           (fun k => if k =? "HOME" then Some "/root" else None)).
  reflexivity.
Defined.

(** When [PORT] holds the decimal numeral of an integer [n], [app.run] is
    called with port [n], whatever the digit limit of the interpreter: the
    numeral is read back exactly, and no range is checked, so a negative
    number or one beyond 65535 reaches [app.run] as it is. *)
Theorem port_numeral_is_read_back (lim : nat) (environ : Environ) (n : Z) :
  environ "PORT" = Some (dec n) ->
  (String.length (dec n) <= MAX_STR_DIGITS_THRESHOLD)%nat ->
  main "__main__" lim environ = AppRun "0.0.0.0" n.
Proof.
  intros Hset Hlen. unfold main, environ_get, int.
  change ("__main__" =? "__main__") with true. cbv iota.
  now rewrite Hset, (int_str_dec lim n Hlen).
Qed.

Lemma port_numeral_is_read_back_witness :
  main "__main__" 4300 (fun k => if k =? "PORT" then Some (dec (-70000)) else None)
  = AppRun "0.0.0.0" (-70000).
Proof.
  apply (port_numeral_is_read_back 4300
           (fun k => if k =? "PORT" then Some (dec (-70000)) else None) (-70000)).
  - reflexivity.
  - vm_compute. lia.
Defined.

Example start_up_runs :
  main "__main__" 4300 (fun k => if k =? "PORT" then Some "8080" else None)
  = AppRun "0.0.0.0" 8080
  /\ main "__main__" 0 (fun k => if k =? "PORT" then Some "+8_080" else None)
     = AppRun "0.0.0.0" 8080
  /\ main "__main__" 4300 (fun k => if k =? "PORT" then Some "80 80" else None)
     = Crashed "ValueError"
  /\ main "app" 4300 (fun k => if k =? "PORT" then Some "http" else None)
     = NotMain.
Proof. repeat split. Qed.

(** A text without digits scans to no digits. *)
Lemma scan_digits_without_digit (s : string) (b : bool) (acc : Z) (k : nat) :
  forallb (fun c => negb (is_digit c)) (list_ascii_of_string s) = true ->
  scan_digits s b acc k = None
  \/ exists rest, scan_digits s b acc k = Some (acc, k, rest).
Proof.
  revert b. induction s as [|c r IH]; intros b Hno; cbn [scan_digits].
  - destruct b; [now left | right; now exists ""].
  - cbn [list_ascii_of_string forallb] in Hno.
    apply andb_true_iff in Hno. destruct Hno as [Hc Hr].
    apply negb_true_iff in Hc. rewrite Hc.
    destruct (Ascii.eqb c "_").
    + destruct b; [now left | now apply IH].
    + destruct b; [now left | right; now eexists].
Qed.

Lemma skip_spaces_without_digit (s : string) :
  forallb (fun c => negb (is_digit c)) (list_ascii_of_string s) = true ->
  forallb (fun c => negb (is_digit c)) (list_ascii_of_string (skip_spaces s)) = true.
Proof.
  induction s as [|c r IH]; intros Hno; cbn [skip_spaces]; [exact Hno |].
  destruct (Py_ISSPACE c); [| exact Hno].
  cbn [list_ascii_of_string forallb] in Hno.
  apply andb_true_iff in Hno. now apply IH.
Qed.

(** A [PORT] of ASCII text that holds no digit (the empty text, a name,
    white space, a lone sign) stops the start-up with [ValueError]:
    [app.run] is never called. *)
Theorem port_without_digit_is_ValueError
    (lim : nat) (environ : Environ) (s : string) :
  environ "PORT" = Some s ->
  ascii_only s = true ->
  forallb (fun c => negb (is_digit c)) (list_ascii_of_string s) = true ->
  main "__main__" lim environ = Crashed "ValueError".
Proof.
  intros Henv _ Hno. unfold main, environ_get, int.
  change ("__main__" =? "__main__") with true. cbv iota. rewrite Henv.
  assert (int_str lim s = None) as ->; [| reflexivity].
  unfold int_str. apply skip_spaces_without_digit in Hno.
  set (s1 := skip_spaces s) in *.
  set (numeral := if starts_with "+" s1 || starts_with "-" s1 then tail s1 else s1).
  assert (forallb (fun c => negb (is_digit c)) (list_ascii_of_string numeral) = true)
    as Hnum.
  { subst numeral. destruct (starts_with "+" s1 || starts_with "-" s1); [| exact Hno].
    destruct s1 as [|c r]; [exact Hno |].
    cbn [tail]. cbn [list_ascii_of_string forallb] in Hno.
    now apply andb_true_iff in Hno. }
  destruct (starts_with "_" numeral); [reflexivity |].
  destruct (scan_digits_without_digit numeral false 0 0 Hnum) as [-> | [rest ->]];
    reflexivity.
Qed.

Lemma port_without_digit_is_ValueError_witness :
  main "__main__" 4300 (fun k => if k =? "PORT" then Some "" else None)
  = Crashed "ValueError".
Proof.
  apply (port_without_digit_is_ValueError _ _ ""); reflexivity.
Defined.

(** White space around the text is skipped. *)
Lemma skip_spaces_all_spaces (ws : string) :
  forallb Py_ISSPACE (list_ascii_of_string ws) = true -> skip_spaces ws = "".
Proof.
  induction ws as [|c r IH]; intros H; cbn [skip_spaces]; [reflexivity |].
  cbn [list_ascii_of_string forallb] in H. apply andb_true_iff in H.
  destruct H as [-> H]. now apply IH.
Qed.

Lemma skip_spaces_before (ws x : string) :
  forallb Py_ISSPACE (list_ascii_of_string ws) = true ->
  skip_spaces (ws ++ x) = skip_spaces x.
Proof.
  induction ws as [|c r IH]; intros H; cbn [String.append skip_spaces];
    [reflexivity |].
  cbn [list_ascii_of_string forallb] in H. apply andb_true_iff in H.
  destruct H as [-> H]. now apply IH.
Qed.

Lemma skip_spaces_after (x ws : string) :
  forallb Py_ISSPACE (list_ascii_of_string ws) = true ->
  skip_spaces (x ++ ws) =
  match skip_spaces x with
  | EmptyString => EmptyString
  | String c r => String c (r ++ ws)
  end.
Proof.
  intros H. induction x as [|c r IH]; cbn [String.append skip_spaces].
  - now apply skip_spaces_all_spaces.
  - destruct (Py_ISSPACE c); [exact IH | reflexivity].
Qed.

Lemma scan_digits_after (x ws : string) (b : bool) (acc : Z) (k : nat) :
  forallb Py_ISSPACE (list_ascii_of_string ws) = true ->
  scan_digits (x ++ ws) b acc k =
  match scan_digits x b acc k with
  | None => None
  | Some (v, n, rest) => Some (v, n, rest ++ ws)
  end.
Proof.
  intros H. revert b acc k.
  induction x as [|c r IH]; intros b acc k; cbn [String.append scan_digits].
  - destruct ws as [|w ws']; cbn [scan_digits]; [now destruct b |].
    cbn [list_ascii_of_string forallb] in H. apply andb_true_iff in H.
    destruct H as [Hw _]. destruct (space_is_plain w Hw) as [-> ->].
    now destruct b.
  - destruct (is_digit c); [apply IH |].
    destruct (Ascii.eqb c "_"); [destruct b; [reflexivity | apply IH] |].
    now destruct b.
Qed.

(** White space before and after the ASCII text of [PORT] (a trailing line
    feed, say) changes nothing: the start-up ends as it does without it. *)
Theorem port_ignores_surrounding_space
    (lim : nat) (environ1 environ2 : Environ) (before s after : string) :
  forallb Py_ISSPACE (list_ascii_of_string before) = true ->
  forallb Py_ISSPACE (list_ascii_of_string after) = true ->
  ascii_only s = true ->
  environ1 "PORT" = Some (before ++ s ++ after) ->
  environ2 "PORT" = Some s ->
  main "__main__" lim environ1 = main "__main__" lim environ2.
Proof.
  intros Hb Ha _ H1 H2. unfold main, environ_get, int. rewrite H1, H2.
  assert (int_str lim (before ++ s ++ after) = int_str lim s) as ->;
    [| reflexivity].
  unfold int_str.
  rewrite (skip_spaces_before before _ Hb), (skip_spaces_after s after Ha).
  destruct (skip_spaces s) as [|c r]; [reflexivity |].
  cbn [starts_with tail].
  assert (forall x, starts_with "_" (x ++ after) = starts_with "_" x) as Hhead.
  { intros [|x0 x]; cbn [String.append starts_with]; [| reflexivity].
    destruct after as [|w ws]; [reflexivity |].
    cbn [list_ascii_of_string forallb] in Ha. apply andb_true_iff in Ha.
    destruct Ha as [Hw _]. cbn [starts_with].
    now destruct (space_is_plain w Hw). }
  assert ((if Ascii.eqb c "+" || Ascii.eqb c "-" then r ++ after
           else String c (r ++ after))
          = (if Ascii.eqb c "+" || Ascii.eqb c "-" then r else String c r) ++ after)
    as -> by (now destruct (Ascii.eqb c "+" || Ascii.eqb c "-")).
  rewrite Hhead, (scan_digits_after _ after false 0 0 Ha).
  destruct (starts_with "_" _); [reflexivity |].
  destruct (scan_digits _ false 0 0) as [[[v n] rest] |]; [| reflexivity].
  rewrite (skip_spaces_after rest after Ha).
  now destruct (skip_spaces rest).
Qed.

Lemma port_ignores_surrounding_space_witness :
  main "__main__" 4300
    (fun k => if k =? "PORT"
              then Some (" " ++ "8080" ++ String (ascii_of_nat 10) "")
              else None)
  = main "__main__" 4300 (fun k => if k =? "PORT" then Some "8080" else None).
Proof.
  apply (port_ignores_surrounding_space _ _ _ " " "8080" (String (ascii_of_nat 10) ""));
    reflexivity.
Defined.
